(** * throw-res: throwable HTTP responses for Express

    A shallow embedding of [src/index.ts]: the error-handling middleware
    [throwableResponses] and the three classes [ThrowableResponse],
    [ThrowableRedirect] and [ThrowableJson].

    The package never writes a response itself: it calls methods of the
    Express response object and the [next] function it is handed.  Running
    a handler is therefore modelled as the sequence of those calls,
    together with the way the handler completes (normally or by throwing). *)

From stdpp Require Import base decidable option list strings pretty.
From Stdlib Require Import ZArith.

#[local] Set Warnings "-register-all".

Local Open Scope Z_scope.
Local Open Scope string_scope.

(** ** Host objects

    [req], [res] and [next] are created by Express and only passed along
    by this package; they are referred to by handle. *)

Record Request := mkRequest { req_handle : nat }.
Record Response := mkResponse { res_handle : nat }.
Record NextFunction := mkNext { next_handle : nat }.

(** The [Json] type of the source: string, number, boolean, null, array,
    or object with string keys (kept in insertion order).  The package
    does no arithmetic; numbers are taken to be integers. *)
Inductive Json : Type :=
| JString (s : string)
| JNumber (n : Z)
| JBoolean (b : bool)
| JNull
| JArray (items : list Json)
| JObject (members : list (string * Json)).

(** ** Calls made on the host

    One constructor per method of the response sink, and one for the
    continuation.  [V] is the type of JavaScript values, needed for the
    argument of [next]. *)
Inductive Call (V : Type) : Type :=
| CallStatus (res : Response) (code : Z)                  (* res.status(code) *)
| CallSet (res : Response) (field value : string)         (* res.set(field, value) *)
| CallSend (res : Response) (body : string)               (* res.send(body) *)
| CallJson (res : Response) (body : Json)                 (* res.json(body) *)
| CallRedirect (res : Response) (status : Z) (url : string) (* res.redirect(status, url) *)
| CallNext (next : NextFunction) (err : V).               (* next(err) *)

Arguments CallStatus {V} res code.
Arguments CallSet {V} res field value.
Arguments CallSend {V} res body.
Arguments CallJson {V} res body.
Arguments CallRedirect {V} res status url.
Arguments CallNext {V} next err.

(** How a piece of code completes. *)
Inductive Completion (V A : Type) : Type :=
| Normal (result : A)
| Throw (exn : V).

Arguments Normal {V A} result.
Arguments Throw {V A} exn.

(** An effectful computation: the calls it made, in order, and its completion. *)
Record Eff (V A : Type) : Type := mkEff {
  calls : list (Call V);
  completion : Completion V A
}.

Arguments mkEff {V A} calls completion.
Arguments calls {V A} e.
Arguments completion {V A} e.

(** Express's [Handler]: [(req, res, next) => void]. *)
Definition Handler (V : Type) : Type :=
  Request -> Response -> NextFunction -> Eff V unit.

(** ** Classes and values *)

(** [ThrowableResponse] and the classes below it: the two subclasses of the
    package and any [class name extends parent] an application declares. *)
Inductive ThrowableClass : Type :=
| C_ThrowableResponse
| C_ThrowableRedirect
| C_ThrowableJson
| C_Extends (name : string) (parent : ThrowableClass).

(** The fields of an instance of [ThrowableResponse]: the [message] set by
    the [Error] constructor and the public [handler]. *)
Record Instance (V : Type) : Type := mkInstance {
  class_of : ThrowableClass;
  message : string;
  handler : Handler V
}.

Arguments mkInstance {V} class_of message handler.
Arguments class_of {V} i.
Arguments message {V} i.
Arguments handler {V} i.

(** JavaScript values, as far as the middleware can tell them apart. *)
Inductive Value : Type :=
| VUndefined
| VNull
| VBoolean (b : bool)
| VNumber (n : Z)
| VString (s : string)
| VObject (props : list (string * Value))            (* an object that is no Error *)
| VError (subclass : option string) (msg : string)   (* Error, or e.g. TypeError *)
| VThrowable (sig : Instance Value).                 (* built by ThrowableResponse's constructor *)

Definition Signal : Type := Instance Value.

(** ** The effect monad

    Sequencing appends the calls and stops at the first throw, as
    JavaScript statements and method chains do. *)

Definition eff_ret {V A : Type} (a : A) : Eff V A :=
  mkEff [] (Normal a).

Definition eff_bind {V A B : Type} (f : A -> Eff V B) (m : Eff V A) : Eff V B :=
  match completion m with
  | Normal a => mkEff (calls m ++ calls (f a)) (completion (f a))
  | Throw e => mkEff (calls m) (Throw e)
  end.

#[global] Instance Eff_ret {V : Type} : MRet (Eff V) := @eff_ret V.
#[global] Instance Eff_bind {V : Type} : MBind (Eff V) := @eff_bind V.

(** [throw e] *)
Definition throw {V A : Type} (e : V) : Eff V A :=
  mkEff [] (Throw e).

(** [res.status(code)]; Express returns [res] itself, so calls can be chained. *)
Definition res_status {V : Type} (res : Response) (code : Z) : Eff V Response :=
  mkEff [CallStatus res code] (Normal res).

(** [res.json(body)], chainable like [res.status]. *)
Definition res_json {V : Type} (res : Response) (body : Json) : Eff V Response :=
  mkEff [CallJson res body] (Normal res).

(** [res.redirect(status, url)] *)
Definition res_redirect {V : Type} (res : Response) (status : Z) (url : string) : Eff V unit :=
  mkEff [CallRedirect res status url] (Normal ()).

(** [next(err)] *)
Definition call_next {V : Type} (next : NextFunction) (err : V) : Eff V unit :=
  mkEff [CallNext next err] (Normal ()).

(** An arrow function with an expression body used as a [Handler]: its
    value is ignored by the caller. *)
Definition discard {V A : Type} (m : Eff V A) : Eff V unit :=
  _ ← m; mret ().

(** ** [instanceof] *)

(** The constructors [instanceof] can be asked about. *)
Inductive Class : Type :=
| Class_Object
| Class_Error
| Class_Other (name : string)              (* another subclass of Error, e.g. TypeError *)
| Class_Throwable (c : ThrowableClass).

#[global] Instance ThrowableClass_eq_dec : EqDecision ThrowableClass.
Proof. solve_decision. Defined.

#[global] Instance Class_eq_dec : EqDecision Class.
Proof. solve_decision. Defined.

(** The [extends] clauses at and below [ThrowableResponse], most derived
    class first. *)
Fixpoint throwable_chain (c : ThrowableClass) : list ThrowableClass :=
  c :: match c with
       | C_ThrowableResponse => []
       | C_ThrowableRedirect => [C_ThrowableResponse]
       | C_ThrowableJson => [C_ThrowableResponse]
       | C_Extends _ parent => throwable_chain parent
       end.

(** The prototype chain of a value; primitives have none that
    [instanceof] looks at.  [ThrowableResponse extends Error]. *)
Definition prototype_chain (v : Value) : list Class :=
  match v with
  | VObject _ => [Class_Object]
  | VError None _ => [Class_Error; Class_Object]
  | VError (Some name) _ => [Class_Other name; Class_Error; Class_Object]
  | VThrowable sig =>
      (Class_Throwable <$> throwable_chain (class_of sig)) ++ [Class_Error; Class_Object]
  | _ => []
  end.

(** [v instanceof C] *)
Definition instanceof (v : Value) (C : Class) : bool :=
  bool_decide (C ∈ prototype_chain v).

(** ** The middleware *)

(** [(err, req, res, next) => { if (err instanceof ThrowableResponse)
    err.handler(req, res, next) else next(err) }].  After the [instanceof]
    test [err] has the fields of a [ThrowableResponse]; the second branch of
    the inner match stands for a call of a missing [handler]. *)
Definition throwableResponses (err : Value) (req : Request) (res : Response)
    (next : NextFunction) : Eff Value unit :=
  if instanceof err (Class_Throwable C_ThrowableResponse) then
    match err with
    | VThrowable sig => handler sig req res next
    | _ => throw (VError (Some "TypeError") "err.handler is not a function")
    end
  else call_next next err.

(** ** The classes *)

(** [x ?? d] on an optional argument. *)
Definition nullish {A : Type} (x : option A) (d : A) : A :=
  match x with
  | Some a => a
  | None => d
  end.

Infix "??" := nullish (at level 45, left associativity).

(** The constructor of [ThrowableResponse], for [new new_target(...)]:
    [super(messageForErrorConstructor ?? "Not an error: response thrown")]
    lets [Error] store the message, and [public handler] stores the
    handler. *)
Definition super_ThrowableResponse (new_target : ThrowableClass)
    (handler : Handler Value) (messageForErrorConstructor : option string) : Signal :=
  mkInstance new_target
    (messageForErrorConstructor ?? "Not an error: response thrown")
    handler.

(** [new ThrowableResponse(handler, messageForErrorConstructor)] *)
Definition ThrowableResponse (handler : Handler Value)
    (messageForErrorConstructor : option string) : Signal :=
  super_ThrowableResponse C_ThrowableResponse handler messageForErrorConstructor.

(** What a [URL] object holds at one moment, as far as the package uses
    it: [toString()] gives [href].  The package never changes a URL.  An
    application can; the objects themselves, passed by reference, are
    modelled further down ([UrlHeap]). *)
Record URL := mkURL { href : string }.

(** [location: string | URL] *)
Inductive Location : Type :=
| LString (s : string)
| LURL (u : URL).

(** [location.toString()], which is also what a template literal puts in
    place of [${location}]. *)
Definition toString (location : Location) : string :=
  match location with
  | LString s => s
  | LURL u => href u
  end.

(** [`${status}`] for an integer status: its decimal digits, with a minus
    sign when negative (JavaScript switches to exponent notation only from
    10^21 on). *)
Definition Number_toString (n : Z) : string := pretty n.

(** [new ThrowableRedirect(location, status = 302)] *)
Definition ThrowableRedirect (location : Location) (status : option Z) : Signal :=
  let status := default 302 status in
  super_ThrowableResponse C_ThrowableRedirect
    (fun _ res _ => res_redirect res status (toString location))
    (Some ("Redirecting to " ++ toString location)).

(** [new ThrowableJson(json, status = 200)] *)
Definition ThrowableJson (json : Json) (status : option Z) : Signal :=
  let status := default 200 status in
  super_ThrowableResponse C_ThrowableJson
    (fun _ res _ => discard (r ← res_status res status; res_json r json))
    (Some ("JSON response: " ++ Number_toString status)).

(** [throw sig], reaching the middleware as [err]. *)
Definition raise (sig : Signal) : Value := VThrowable sig.

(** ** Reading a run *)

(** The status codes of the type of [ThrowableRedirect]'s [status]
    parameter, [301 | 302 | 303 | 307 | 308]. *)
Definition redirect_statuses : list Z := [301; 302; 303; 307; 308].

Definition is_redirect_status (status : Z) : bool :=
  bool_decide (status ∈ redirect_statuses).

Definition is_status_write {V : Type} (c : Call V) : bool :=
  match c with CallStatus _ _ => true | _ => false end.

(** [res.json] and [res.send] are the calls that write a body. *)
Definition is_body_write {V : Type} (c : Call V) : bool :=
  match c with CallJson _ _ | CallSend _ _ => true | _ => false end.

Definition is_redirect_write {V : Type} (c : Call V) : bool :=
  match c with CallRedirect _ _ _ => true | _ => false end.

Definition is_next_call {V : Type} (c : Call V) : bool :=
  match c with CallNext _ _ => true | _ => false end.

(** Any call on the response object. *)
Definition is_response_write {V : Type} (c : Call V) : bool :=
  negb (is_next_call c).

Definition count {V : Type} (p : Call V -> bool) (t : list (Call V)) : nat :=
  length (List.filter p t).

Definition non_empty (s : string) : Prop := s ≠ "".

(** [err.message] *)
Definition get_message (err : Value) : option string :=
  match err with
  | VError _ msg => Some msg
  | VThrowable sig => Some (message sig)
  | _ => None
  end.

(** The response object a call is made on; [next] is no method of it. *)
Definition call_target {V : Type} (c : Call V) : option Response :=
  match c with
  | CallStatus res _ => Some res
  | CallSet res _ _ => Some res
  | CallSend res _ => Some res
  | CallJson res _ => Some res
  | CallRedirect res _ _ => Some res
  | CallNext _ _ => None
  end.

(** ** URL objects passed by reference

    An application can change a [URL] object after it has handed it to a
    constructor ([u.pathname = ...], [u.href = ...]).  The constructor of
    [ThrowableRedirect] keeps the object it is given: the template literal
    for the message reads its string form at once, the handler calls
    [location.toString()] only when it runs. *)

Definition UrlRef : Type := nat.

(** What each [URL] object holds at one moment. *)
Definition UrlHeap : Type := UrlRef -> URL.

(** [location: string | URL], a [URL] being an object of the heap. *)
Inductive LocationArg : Type :=
| ArgString (s : string)
| ArgURL (ref : UrlRef).

(** The argument as it stands in a heap. *)
Definition deref (heap : UrlHeap) (location : LocationArg) : Location :=
  match location with
  | ArgString s => LString s
  | ArgURL ref => LURL (heap ref)
  end.

(** An assignment to the object [ref] after which its [href] is [new_href]. *)
Definition set_href (heap : UrlHeap) (ref : UrlRef) (new_href : string) : UrlHeap :=
  fun r => if decide (r = ref) then mkURL new_href else heap r.

(** [new ThrowableRedirect(location, status = 302)] evaluated in heap
    [made], as the instance stands when the heap is [now]: the message was
    computed from [made], the handler reads [now]. *)
Definition ThrowableRedirect_ref (made : UrlHeap) (location : LocationArg)
    (status : option Z) (now : UrlHeap) : Signal :=
  let status := default 302 status in
  super_ThrowableResponse C_ThrowableRedirect
    (fun _ res _ => res_redirect res status (toString (deref now location)))
    (Some ("Redirecting to " ++ toString (deref made location))).

(** A heap in which every [URL] is [https://example.com/a]. *)
Definition example_heap : UrlHeap :=
  fun _ => mkURL "https://example.com/a".

(** * Properties *)

(** ** The effect monad is a monad *)

Lemma eff_eta {V A : Type} (m : Eff V A) : mkEff (calls m) (completion m) = m.
Proof. by destruct m. Qed.

Lemma eff_bind_ret_l {V A B : Type} (a : A) (f : A -> Eff V B) :
  (mret a ≫= f) = f a.
Proof. apply eff_eta. Qed.

Lemma eff_bind_ret_r {V A : Type} (m : Eff V A) : (m ≫= mret) = m.
Proof.
  destruct m as [t [a|e]]; unfold mbind, Eff_bind, eff_bind; simpl;
    [by rewrite app_nil_r | done].
Qed.

Lemma eff_bind_assoc {V A B C : Type} (m : Eff V A) (f : A -> Eff V B)
    (g : B -> Eff V C) :
  ((m ≫= f) ≫= g) = (m ≫= λ a, f a ≫= g).
Proof.
  destruct m as [t [a|e]]; unfold mbind, Eff_bind, eff_bind; simpl; [|done].
  destruct (f a) as [t' [b|e]]; simpl; [|done].
  by rewrite app_assoc.
Qed.

Lemma eff_bind_throw {V A B : Type} (e : V) (f : A -> Eff V B) :
  (throw e ≫= f) = throw e.
Proof. done. Qed.

(** ** [instanceof] *)

Lemma throwable_chain_root (c : ThrowableClass) :
  C_ThrowableResponse ∈ throwable_chain c.
Proof.
  induction c as [| | |name parent IH]; simpl.
  - apply list_elem_of_singleton; done.
  - apply elem_of_cons; right. apply list_elem_of_singleton; done.
  - apply elem_of_cons; right. apply list_elem_of_singleton; done.
  - apply elem_of_cons; right. exact IH.
Qed.

(** Every instance built by [ThrowableResponse]'s constructor passes the
    test of the middleware, whatever subclass it belongs to. *)
Lemma instanceof_ThrowableResponse_sig (sig : Signal) :
  instanceof (VThrowable sig) (Class_Throwable C_ThrowableResponse) = true.
Proof.
  apply bool_decide_eq_true. simpl.
  apply elem_of_app; left.
  apply list_elem_of_fmap. exists C_ThrowableResponse.
  split; [done | apply throwable_chain_root].
Qed.

(** Nothing else passes it. *)
Lemma instanceof_ThrowableResponse_inv (v : Value) (c : ThrowableClass) :
  instanceof v (Class_Throwable c) = true -> ∃ sig, v = VThrowable sig.
Proof.
  intros H. apply bool_decide_eq_true in H.
  destruct v as [| | | | | props|[name|] msg|sig]; simpl in H;
    try (by eexists);
    repeat (apply elem_of_cons in H; destruct H as [H|H]; [discriminate H|]);
    by apply elem_of_nil in H.
Qed.

Lemma instanceof_Error_sig (sig : Signal) :
  instanceof (VThrowable sig) Class_Error = true.
Proof.
  apply bool_decide_eq_true. simpl.
  apply elem_of_app; right. apply elem_of_cons; by left.
Qed.

(** ** What the built-in handlers do *)

Lemma run_redirect_handler (location : Location) (status : option Z)
    (req : Request) (res : Response) (next : NextFunction) :
  handler (ThrowableRedirect location status) req res next
  = mkEff [CallRedirect res (default 302 status) (toString location)] (Normal ()).
Proof. reflexivity. Qed.

Lemma run_json_handler (json : Json) (status : option Z)
    (req : Request) (res : Response) (next : NextFunction) :
  handler (ThrowableJson json status) req res next
  = mkEff [CallStatus res (default 200 status); CallJson res json] (Normal ()).
Proof. reflexivity. Qed.

Lemma throwableResponses_sig (sig : Signal) (req : Request) (res : Response)
    (next : NextFunction) :
  throwableResponses (raise sig) req res next = handler sig req res next.
Proof.
  unfold throwableResponses, raise.
  by rewrite instanceof_ThrowableResponse_sig.
Qed.

Lemma append_non_empty (prefix s : string) :
  non_empty prefix -> non_empty (prefix ++ s).
Proof. destruct prefix; [done | discriminate]. Qed.

(** ** The examples of the documentation *)

(** [throw new ThrowableJson({ error: 'Not found' }, 404)] *)
Example json_not_found (req : Request) (res : Response) (next : NextFunction) :
  throwableResponses
    (raise (ThrowableJson (JObject [("error", JString "Not found")]) (Some 404)))
    req res next
  = mkEff [CallStatus res 404;
           CallJson res (JObject [("error", JString "Not found")])] (Normal ()).
Proof. by rewrite throwableResponses_sig. Qed.

(** [throw new ThrowableRedirect('/login')] *)
Example redirect_login (req : Request) (res : Response) (next : NextFunction) :
  throwableResponses (raise (ThrowableRedirect (LString "/login") None)) req res next
  = mkEff [CallRedirect res 302 "/login"] (Normal ()).
Proof. by rewrite throwableResponses_sig. Qed.

(** A [class ThrowableHtml extends ThrowableResponse] of an application is
    handled like the built-in classes. *)
Example subclass_is_handled (h : Handler Value) (req : Request) (res : Response)
    (next : NextFunction) :
  throwableResponses
    (raise (super_ThrowableResponse (C_Extends "ThrowableHtml" C_ThrowableResponse)
              h (Some "HTML response: 200")))
    req res next
  = h req res next.
Proof. by rewrite throwableResponses_sig. Qed.

(** An ordinary error goes on to the next error handler as it came. *)
Example type_error_is_forwarded (req : Request) (res : Response)
    (next : NextFunction) :
  throwableResponses (VError (Some "TypeError") "boom") req res next
  = mkEff [CallNext next (VError (Some "TypeError") "boom")] (Normal ()).
Proof. reflexivity. Qed.

(** ** The claims *)

(** C1. For every caught value [err] the middleware does one of two
    things, and the [instanceof] test tells which.  Either [err] is an
    instance of [ThrowableResponse] (of whatever subclass): then the run of
    the middleware is the run of [err.handler(req, res, next)] and nothing
    more, so the middleware makes no call of [next] of its own.  Or it is
    not: then the run is the single call [next(err)], with [err] as it
    came, and no handler is run. *)
Theorem throwableResponses_dispatch (err : Value) (req : Request)
    (res : Response) (next : NextFunction) :
  (instanceof err (Class_Throwable C_ThrowableResponse) = true
   ∧ ∃ sig : Signal, err = VThrowable sig
       ∧ throwableResponses err req res next = handler sig req res next)
  ∨ (instanceof err (Class_Throwable C_ThrowableResponse) = false
     ∧ (∀ sig : Signal, err ≠ VThrowable sig)
     ∧ throwableResponses err req res next = mkEff [CallNext next err] (Normal ())
     ∧ count is_next_call (calls (throwableResponses err req res next)) = 1%nat
     ∧ count is_response_write (calls (throwableResponses err req res next)) = 0%nat).
Proof.
  destruct (instanceof err (Class_Throwable C_ThrowableResponse)) eqn:Htest.
  - left. split; [done|].
    destruct (instanceof_ThrowableResponse_inv _ _ Htest) as [sig ->].
    exists sig. split; [done|]. apply (throwableResponses_sig sig).
  - right. split; [done|].
    assert (Hrun : throwableResponses err req res next
                   = mkEff [CallNext next err] (Normal ())).
    { unfold throwableResponses. by rewrite Htest. }
    split; [|by rewrite Hrun].
    intros sig ->. by rewrite instanceof_ThrowableResponse_sig in Htest.
Qed.

(** C2. The claim says that [new ThrowableRedirect(location, 299)] throws.
    The constructor has no check: with 299, which is none of the five
    redirect codes, it returns an instance like any other, and the
    middleware then redirects with status 299. *)
Theorem ThrowableRedirect_299_is_constructed (req : Request) (res : Response)
    (next : NextFunction) :
  is_redirect_status 299 = false
  ∧ class_of (ThrowableRedirect (LString "/login") (Some 299)) = C_ThrowableRedirect
  ∧ message (ThrowableRedirect (LString "/login") (Some 299)) = "Redirecting to /login"
  ∧ throwableResponses (raise (ThrowableRedirect (LString "/login") (Some 299))) req res next
    = mkEff [CallRedirect res 299 "/login"] (Normal ()).
Proof.
  split; [by vm_compute|]. split; [done|]. split; [done|].
  by rewrite throwableResponses_sig.
Qed.

(** C3. For every JSON value [V] and status [S], running the handler of
    [new ThrowableJson(V, S)] makes exactly the call [res.status(S)]
    followed by the call [res.json(V)] on the response it was given:
    one status write, one body write (Express's JSON write, which
    serialises [V] and marks the body as JSON), no other call, and it
    completes normally. *)
Theorem ThrowableJson_handler_writes (V : Json) (S : Z) (req : Request)
    (res : Response) (next : NextFunction) :
  calls (handler (ThrowableJson V (Some S)) req res next)
    = [CallStatus res S; CallJson res V]
  ∧ completion (handler (ThrowableJson V (Some S)) req res next) = Normal ()
  ∧ count is_status_write (calls (handler (ThrowableJson V (Some S)) req res next)) = 1%nat
  ∧ count is_body_write (calls (handler (ThrowableJson V (Some S)) req res next)) = 1%nat
  ∧ length (calls (handler (ThrowableJson V (Some S)) req res next)) = 2%nat.
Proof. rewrite run_json_handler. by repeat split. Qed.

(** C4. For every status code among 301, 302, 303, 307, 308 and every
    location [L], string or URL, running the handler of
    [new ThrowableRedirect(L, statusCode)] makes the single call
    [res.redirect(statusCode, L.toString())] and nothing else. *)
Theorem ThrowableRedirect_handler_writes (L : Location) (statusCode : Z)
    (req : Request) (res : Response) (next : NextFunction) :
  is_redirect_status statusCode = true ->
  handler (ThrowableRedirect L (Some statusCode)) req res next
    = mkEff [CallRedirect res statusCode (toString L)] (Normal ())
  ∧ count is_redirect_write
      (calls (handler (ThrowableRedirect L (Some statusCode)) req res next)) = 1%nat
  ∧ length (calls (handler (ThrowableRedirect L (Some statusCode)) req res next)) = 1%nat.
Proof. intros _. rewrite run_redirect_handler. by repeat split. Qed.

Lemma ThrowableRedirect_handler_writes_witness :
  is_redirect_status 307 = true
  ∧ handler (ThrowableRedirect (LURL (mkURL "https://example.com/profile")) (Some 307))
      (mkRequest 0) (mkResponse 1) (mkNext 2)
    = mkEff [CallRedirect (mkResponse 1) 307 "https://example.com/profile"] (Normal ()).
Proof.
  split; [reflexivity|].
  apply (ThrowableRedirect_handler_writes
           (LURL (mkURL "https://example.com/profile")) 307
           (mkRequest 0) (mkResponse 1) (mkNext 2)).
  reflexivity.
Defined.

(** C5 as stated fails: a caller of the base class may pass the empty
    string, and [??] keeps it. *)
Lemma ThrowableResponse_empty_message :
  ¬ non_empty (message (ThrowableResponse (λ _ _ _, mret ()) (Some ""))).
Proof. intros H. by apply H. Qed.

(** C5, amended. The message of [new ThrowableResponse(handler, m)] is [m]
    when a message is passed and the placeholder when it is left out; so it
    is non-empty exactly when the caller did not pass the empty string.
    The messages of [ThrowableRedirect] and [ThrowableJson] are never
    empty. *)
Theorem message_non_empty :
  (∀ (h : Handler Value) (m : option string),
     message (ThrowableResponse h m) = m ?? "Not an error: response thrown"
     ∧ (non_empty (message (ThrowableResponse h m)) ↔ m ≠ Some ""))
  ∧ non_empty (message (ThrowableResponse (λ _ _ _, mret ()) None))
  ∧ (∀ (L : Location) (status : option Z),
       non_empty (message (ThrowableRedirect L status)))
  ∧ (∀ (V : Json) (status : option Z),
       non_empty (message (ThrowableJson V status))).
Proof.
  split; [|split; [done|split]].
  - intros h [s|]; (split; [done|]); simpl; unfold non_empty.
    + split; intros H; congruence.
    + split; [done | intros _; discriminate].
  - intros L status. by apply append_non_empty.
  - intros V status. by apply append_non_empty.
Qed.

(** C6. [new ThrowableRedirect(L)], with no status, redirects with 302. *)
Theorem ThrowableRedirect_default_status (L : Location) (req : Request)
    (res : Response) (next : NextFunction) :
  handler (ThrowableRedirect L None) req res next
    = mkEff [CallRedirect res 302 (toString L)] (Normal ())
  ∧ ThrowableRedirect L None = ThrowableRedirect L (Some 302).
Proof. done. Qed.

(** C7. [new ThrowableJson(json, status)] returns an instance for every
    integer [status] and every [json]: the constructor checks neither, the
    handler passes both on as they are, and a missing status is 200. *)
Theorem ThrowableJson_no_validation (json : Json) (status : Z) (req : Request)
    (res : Response) (next : NextFunction) :
  class_of (ThrowableJson json (Some status)) = C_ThrowableJson
  ∧ handler (ThrowableJson json (Some status)) req res next
    = mkEff [CallStatus res status; CallJson res json] (Normal ())
  ∧ ThrowableJson json None = ThrowableJson json (Some 200)
  ∧ handler (ThrowableJson json None) req res next
    = mkEff [CallStatus res 200; CallJson res json] (Normal ()).
Proof. done. Qed.

(** C8. For every location [L] and every valid status code, the message of
    [new ThrowableRedirect(L, statusCode)] is ["Redirecting to "] followed
    by the string form of [L]. *)
Theorem ThrowableRedirect_message (L : Location) (statusCode : Z) :
  is_redirect_status statusCode = true ->
  message (ThrowableRedirect L (Some statusCode)) = "Redirecting to " ++ toString L.
Proof. done. Qed.

Lemma ThrowableRedirect_message_witness :
  is_redirect_status 301 = true
  ∧ message (ThrowableRedirect (LString "/new-home") (Some 301))
    = "Redirecting to /new-home".
Proof.
  split; [reflexivity|].
  apply (ThrowableRedirect_message (LString "/new-home") 301).
  reflexivity.
Defined.

(** While a [URL] object is not changed between construction and
    handling, and always for a string, the instance is the one of the
    model by value. *)
Lemma ThrowableRedirect_ref_unchanged (made now : UrlHeap)
    (location : LocationArg) (status : option Z) :
  toString (deref now location) = toString (deref made location) ->
  ThrowableRedirect_ref made location status now
  = ThrowableRedirect (deref made location) status.
Proof.
  intros Hsame. unfold ThrowableRedirect_ref, ThrowableRedirect.
  by rewrite Hsame.
Qed.

Lemma ThrowableRedirect_ref_string (made now : UrlHeap) (s : string)
    (status : option Z) :
  ThrowableRedirect_ref made (ArgString s) status now
  = ThrowableRedirect (LString s) status.
Proof. reflexivity. Qed.

Lemma run_redirect_ref_handler (made now : UrlHeap) (location : LocationArg)
    (status : option Z) (req : Request) (res : Response) (next : NextFunction) :
  handler (ThrowableRedirect_ref made location status now) req res next
  = mkEff [CallRedirect res (default 302 status) (toString (deref now location))]
      (Normal ()).
Proof. reflexivity. Qed.

(** C9 as stated fails for a [URL] object: the target is not fixed when
    the instance is built.  The same [new ThrowableRedirect(u, 302)],
    handled once before and once after [u.href] was changed, redirects to
    two different targets. *)
Lemma ThrowableRedirect_target_not_fixed :
  handler (ThrowableRedirect_ref example_heap (ArgURL 0%nat) (Some 302) example_heap)
    (mkRequest 0) (mkResponse 1) (mkNext 2)
  ≠ handler
      (ThrowableRedirect_ref example_heap (ArgURL 0%nat) (Some 302)
         (set_href example_heap 0%nat "https://example.com/b"))
      (mkRequest 0) (mkResponse 1) (mkNext 2).
Proof. vm_compute. intros Heq. discriminate Heq. Qed.

(** C9, amended. The handler of a [ThrowableRedirect] depends on the
    status given to the constructor, on the string form the location has
    when the handler runs, and on the response it writes to; not on the
    request, not on [next], not on the heap the instance was built in.
    Two instances built from equal arguments make the same calls exactly
    when the location has the same string form at the two runs.  For a
    string location that is always so. *)
Theorem ThrowableRedirect_ref_deterministic (made1 made2 now1 now2 : UrlHeap)
    (location : LocationArg) (status : option Z) (req1 req2 : Request)
    (res : Response) (next1 next2 : NextFunction) :
  (handler (ThrowableRedirect_ref made1 location status now1) req1 res next1
   = handler (ThrowableRedirect_ref made2 location status now2) req2 res next2
   ↔ toString (deref now1 location) = toString (deref now2 location))
  ∧ handler (ThrowableRedirect_ref made1 location status now1) req1 res next1
    = mkEff [CallRedirect res (default 302 status) (toString (deref now1 location))]
        (Normal ())
  ∧ (∀ s : string,
       handler (ThrowableRedirect_ref made1 (ArgString s) status now1) req1 res next1
       = handler (ThrowableRedirect_ref made2 (ArgString s) status now2) req2 res next2).
Proof.
  rewrite !run_redirect_ref_handler. split; [|done].
  split.
  - intros Heq. by injection Heq.
  - by intros ->.
Qed.

(** C10. Every instance built by one of the three constructors is an
    instance of [Error], and its [message] is the message the constructor
    handed to [Error]: the caller's, or ["Not an error: response thrown"]
    when the caller of the base class gave none; the generated one for the
    two subclasses. *)
Theorem signals_are_errors :
  (∀ (h : Handler Value) (m : option string),
     instanceof (raise (ThrowableResponse h m)) Class_Error = true
     ∧ get_message (raise (ThrowableResponse h m))
       = Some (m ?? "Not an error: response thrown"))
  ∧ (∀ (h : Handler Value),
       get_message (raise (ThrowableResponse h None))
       = Some "Not an error: response thrown")
  ∧ (∀ (L : Location) (status : option Z),
       instanceof (raise (ThrowableRedirect L status)) Class_Error = true
       ∧ get_message (raise (ThrowableRedirect L status))
         = Some ("Redirecting to " ++ toString L))
  ∧ (∀ (V : Json) (status : option Z),
       instanceof (raise (ThrowableJson V status)) Class_Error = true
       ∧ get_message (raise (ThrowableJson V status))
         = Some ("JSON response: " ++ Number_toString (default 200 status))).
Proof.
  repeat split; try done; apply instanceof_Error_sig.
Qed.

(** * Further properties of the classes and the middleware *)

(** ** Class tests *)

Lemma instanceof_throwable_iff (sig : Signal) (c : ThrowableClass) :
  instanceof (VThrowable sig) (Class_Throwable c) = true
  ↔ c ∈ throwable_chain (class_of sig).
Proof.
  unfold instanceof. rewrite bool_decide_eq_true. simpl.
  rewrite elem_of_app, list_elem_of_fmap. split.
  - intros [(c' & Heq & Hin)|Hin].
    + by injection Heq as ->.
    + repeat (apply elem_of_cons in Hin; destruct Hin as [Hin|Hin];
              [discriminate Hin|]).
      by apply elem_of_nil in Hin.
  - intros Hin. left. by exists c.
Qed.

(** The chain of [extends] is a line: it does not pass through both
    subclasses of the package. *)
Lemma throwable_chain_one_branch (c : ThrowableClass) :
  C_ThrowableRedirect ∈ throwable_chain c ->
  C_ThrowableJson ∈ throwable_chain c -> False.
Proof.
  induction c as [| | |name parent IH]; simpl; intros Hr Hj.
  - apply list_elem_of_singleton in Hr. discriminate Hr.
  - apply elem_of_cons in Hj as [Hj|Hj]; [discriminate Hj|].
    apply list_elem_of_singleton in Hj. discriminate Hj.
  - apply elem_of_cons in Hr as [Hr|Hr]; [discriminate Hr|].
    apply list_elem_of_singleton in Hr. discriminate Hr.
  - apply elem_of_cons in Hr as [Hr|Hr]; [discriminate Hr|].
    apply elem_of_cons in Hj as [Hj|Hj]; [discriminate Hj|].
    by apply IH.
Qed.

(** X1. [new ThrowableRedirect(...)] is an instance of [ThrowableRedirect]
    and [new ThrowableJson(...)] one of [ThrowableJson]; and no value at
    all, an instance of a subclass declared by an application included, is
    an instance of both. *)
Theorem redirect_and_json_are_disjoint :
  (∀ (L : Location) (status : option Z),
     instanceof (raise (ThrowableRedirect L status))
       (Class_Throwable C_ThrowableRedirect) = true)
  ∧ (∀ (V : Json) (status : option Z),
       instanceof (raise (ThrowableJson V status))
         (Class_Throwable C_ThrowableJson) = true)
  ∧ (∀ err : Value,
       ¬ (instanceof err (Class_Throwable C_ThrowableRedirect) = true
          ∧ instanceof err (Class_Throwable C_ThrowableJson) = true)).
Proof.
  split; [done|]. split; [done|].
  intros err [Hr Hj].
  destruct (instanceof_ThrowableResponse_inv _ _ Hr) as [sig ->].
  apply instanceof_throwable_iff in Hr. apply instanceof_throwable_iff in Hj.
  by apply (throwable_chain_one_branch (class_of sig)).
Qed.

(** ** The middleware on the built-in responses *)

(** X2. When a [ThrowableRedirect] or a [ThrowableJson] reaches the
    middleware, every call made is a method call on the response object of
    that request, [next] is not called, so no later error handler runs,
    and the middleware returns normally. *)
Theorem builtin_responses_end_the_request (L : Location) (V : Json)
    (status : option Z) (req : Request) (res : Response) (next : NextFunction) :
  (completion (throwableResponses (raise (ThrowableRedirect L status)) req res next)
     = Normal ()
   ∧ Forall (λ c, call_target c = Some res)
       (calls (throwableResponses (raise (ThrowableRedirect L status)) req res next))
   ∧ count is_next_call
       (calls (throwableResponses (raise (ThrowableRedirect L status)) req res next))
     = 0%nat)
  ∧ (completion (throwableResponses (raise (ThrowableJson V status)) req res next)
       = Normal ()
     ∧ Forall (λ c, call_target c = Some res)
         (calls (throwableResponses (raise (ThrowableJson V status)) req res next))
     ∧ count is_next_call
         (calls (throwableResponses (raise (ThrowableJson V status)) req res next))
       = 0%nat).
Proof.
  rewrite !throwableResponses_sig, run_redirect_handler, run_json_handler.
  simpl. repeat split; repeat constructor.
Qed.

(** X3. The middleware has no [try]: it throws exactly when [err] is a
    [ThrowableResponse] whose handler throws, and then it throws what the
    handler threw.  Forwarding another value never throws. *)
Theorem throwableResponses_throws_iff (err : Value) (req : Request)
    (res : Response) (next : NextFunction) (e : Value) :
  completion (throwableResponses err req res next) = Throw e
  ↔ ∃ sig : Signal, err = VThrowable sig
      ∧ completion (handler sig req res next) = Throw e.
Proof.
  split.
  - unfold throwableResponses.
    destruct (instanceof err (Class_Throwable C_ThrowableResponse)) eqn:Htest.
    + destruct (instanceof_ThrowableResponse_inv _ _ Htest) as [sig ->]. eauto.
    + discriminate.
  - intros (sig & -> & Hthrow).
    change (VThrowable sig) with (raise sig).
    by rewrite throwableResponses_sig.
Qed.

(** A handler that sets a status and then fails: the status call is made,
    and the exception leaves the middleware; [next] is not called with it. *)
Example failing_handler_propagates (req : Request) (res : Response)
    (next : NextFunction) :
  throwableResponses
    (raise (ThrowableResponse
              (λ _ res _, _ ← res_status res 500; throw (VError None "boom")) None))
    req res next
  = mkEff [CallStatus res 500] (Throw (VError None "boom")).
Proof. by rewrite throwableResponses_sig. Qed.

(** ** Messages and effects agree *)

(** X4. While the location has the string form it had when the instance
    was built (a string, or a [URL] object not changed since), the message
    of a [ThrowableRedirect] names the very target its handler redirects
    to. *)
Theorem ThrowableRedirect_ref_message_names_target (made now : UrlHeap)
    (location : LocationArg) (status : option Z) (req : Request)
    (res : Response) (next : NextFunction) (code : Z) (url : string) :
  toString (deref now location) = toString (deref made location) ->
  CallRedirect res code url
    ∈ calls (handler (ThrowableRedirect_ref made location status now) req res next) ->
  message (ThrowableRedirect_ref made location status now) = "Redirecting to " ++ url.
Proof.
  intros Hsame. rewrite run_redirect_ref_handler. simpl.
  intros Hin. apply list_elem_of_singleton in Hin.
  injection Hin as _ ->. by rewrite Hsame.
Qed.

Lemma ThrowableRedirect_ref_message_names_target_witness :
  toString (deref (set_href example_heap 1%nat "https://example.com/b") (ArgURL 0%nat))
    = toString (deref example_heap (ArgURL 0%nat))
  ∧ CallRedirect (mkResponse 1) 302 "https://example.com/a"
      ∈ calls (handler
                 (ThrowableRedirect_ref example_heap (ArgURL 0%nat) None
                    (set_href example_heap 1%nat "https://example.com/b"))
                 (mkRequest 0) (mkResponse 1) (mkNext 2))
  ∧ message
      (ThrowableRedirect_ref example_heap (ArgURL 0%nat) None
         (set_href example_heap 1%nat "https://example.com/b"))
    = "Redirecting to https://example.com/a".
Proof.
  assert (Hsame :
    toString (deref (set_href example_heap 1%nat "https://example.com/b") (ArgURL 0%nat))
    = toString (deref example_heap (ArgURL 0%nat))) by reflexivity.
  assert (Hin : CallRedirect (mkResponse 1) 302 "https://example.com/a"
      ∈ calls (handler
                 (ThrowableRedirect_ref example_heap (ArgURL 0%nat) None
                    (set_href example_heap 1%nat "https://example.com/b"))
                 (mkRequest 0) (mkResponse 1) (mkNext 2))).
  { apply list_elem_of_singleton. reflexivity. }
  split; [exact Hsame|]. split; [exact Hin|].
  exact (ThrowableRedirect_ref_message_names_target example_heap
           (set_href example_heap 1%nat "https://example.com/b") (ArgURL 0%nat) None
           (mkRequest 0) (mkResponse 1) (mkNext 2) 302 "https://example.com/a"
           Hsame Hin).
Defined.

(** After [u.href] was changed the two part: the message still names the
    old target, the handler redirects to the new one. *)
Example message_and_target_after_change (req : Request) (res : Response)
    (next : NextFunction) :
  message
    (ThrowableRedirect_ref example_heap (ArgURL 0%nat) None
       (set_href example_heap 0%nat "https://example.com/b"))
  = "Redirecting to https://example.com/a"
  ∧ handler
      (ThrowableRedirect_ref example_heap (ArgURL 0%nat) None
         (set_href example_heap 0%nat "https://example.com/b")) req res next
    = mkEff [CallRedirect res 302 "https://example.com/b"] (Normal ()).
Proof. split; reflexivity. Qed.

(** X5. The message of a [ThrowableJson] names the very status its handler
    sets, the default 200 included. *)
Theorem ThrowableJson_message_names_status (V : Json) (status : option Z)
    (req : Request) (res : Response) (next : NextFunction) (code : Z) :
  CallStatus res code ∈ calls (handler (ThrowableJson V status) req res next) ->
  message (ThrowableJson V status) = "JSON response: " ++ Number_toString code.
Proof.
  rewrite run_json_handler. simpl.
  intros Hin. apply elem_of_cons in Hin as [Hin|Hin].
  - by injection Hin as ->.
  - apply list_elem_of_singleton in Hin. discriminate Hin.
Qed.

Lemma ThrowableJson_message_names_status_witness :
  CallStatus (mkResponse 1) 200
    ∈ calls (handler (ThrowableJson (JArray [JString "item1"]) None)
               (mkRequest 0) (mkResponse 1) (mkNext 2))
  ∧ message (ThrowableJson (JArray [JString "item1"]) None) = "JSON response: 200".
Proof.
  assert (Hin : CallStatus (mkResponse 1) 200
            ∈ calls (handler (ThrowableJson (JArray [JString "item1"]) None)
                       (mkRequest 0) (mkResponse 1) (mkNext 2))).
  { simpl. apply elem_of_cons. left. reflexivity. }
  split; [exact Hin|].
  exact (ThrowableJson_message_names_status (JArray [JString "item1"]) None
           (mkRequest 0) (mkResponse 1) (mkNext 2) 200 Hin).
Defined.

(** ** What a message and a run depend on *)

(** X6. The message of a [ThrowableJson] depends on the status alone: the
    payload never shows in it, and two messages are equal exactly when the
    statuses (200 when left out) are. *)
Theorem ThrowableJson_message_eq_iff (V1 V2 : Json) (status1 status2 : option Z) :
  message (ThrowableJson V1 status1) = message (ThrowableJson V2 status2)
  ↔ default 200 status1 = default 200 status2.
Proof.
  simpl. unfold Number_toString. split.
  - intros Heq. injection Heq as Heq. by apply (inj pretty).
  - by intros ->.
Qed.

(** X7. The message of a [ThrowableRedirect] depends on the string form of
    the location alone: the status never shows in it, and two messages are
    equal exactly when the targets are. *)
Theorem ThrowableRedirect_message_eq_iff (L1 L2 : Location)
    (status1 status2 : option Z) :
  message (ThrowableRedirect L1 status1) = message (ThrowableRedirect L2 status2)
  ↔ toString L1 = toString L2.
Proof.
  simpl. split.
  - intros Heq. by injection Heq.
  - by intros ->.
Qed.

(** X8. Run on the same response, two [ThrowableRedirect]s make the same
    calls exactly when their statuses (302 when left out) and their
    targets are equal, and two [ThrowableJson]s exactly when their statuses
    (200 when left out) and their payloads are. *)
Theorem builtin_runs_eq_iff (req1 req2 : Request) (res : Response)
    (next1 next2 : NextFunction) :
  (∀ (L1 L2 : Location) (status1 status2 : option Z),
     handler (ThrowableRedirect L1 status1) req1 res next1
     = handler (ThrowableRedirect L2 status2) req2 res next2
     ↔ default 302 status1 = default 302 status2 ∧ toString L1 = toString L2)
  ∧ (∀ (V1 V2 : Json) (status1 status2 : option Z),
       handler (ThrowableJson V1 status1) req1 res next1
       = handler (ThrowableJson V2 status2) req2 res next2
       ↔ default 200 status1 = default 200 status2 ∧ V1 = V2).
Proof.
  split; intros; rewrite ?run_redirect_handler, ?run_json_handler; split.
  - intros Heq. by injection Heq.
  - by intros [-> ->].
  - intros Heq. by injection Heq.
  - by intros [-> ->].
Qed.
